(** * The OAuth 2.0 Authorization Code demo (examples/python/basic_oauth.py)

    A shallow embedding of the Flask route handlers [home], [login],
    [callback], [logout] and [profile].  The session is a finite map from keys to
    Python values; the libraries the handlers call ([requests], [base64],
    [json], [os.getenv]) are fields of a [world] record, so every statement
    below holds for whatever those libraries answer.  Outbound calls are
    recorded in the store, which makes "no network call" and "no retry"
    statements about the length of that record. *)

From stdpp Require Import gmap strings list fin_maps pretty.
From Stdlib Require Import ZArith Strings.Ascii Floats.SpecFloat.

Set Warnings "-register-all".

Local Open Scope Z_scope.

(** ** Python values *)

Module Py.

(** The values that JSON documents, the Flask session and the handlers'
    locals range over: [None], [bool], [int], [float], [str], [list],
    [dict] with string keys. *)
Inductive pyval : Type :=
| PNone
| PBool (b : bool)
| PInt (z : Z)
| PFloat (f : spec_float)
| PStr (s : string)
| PList (l : list pyval)
| PDict (d : gmap string pyval).

(** [type(v).__name__], as it appears in an [AttributeError] message. *)
Definition type_name (v : pyval) : string :=
  match v with
  | PNone => "NoneType"
  | PBool _ => "bool"
  | PInt _ => "int"
  | PFloat _ => "float"
  | PStr _ => "str"
  | PList _ => "list"
  | PDict _ => "dict"
  end.

(** [bool(v)], the test an [if v:] performs. *)
Definition truthy (v : pyval) : bool :=
  match v with
  | PNone => false
  | PBool b => b
  | PInt z => negb (z =? 0)
  | PFloat (S754_zero _) => false
  | PFloat _ => true
  | PStr s => negb (String.eqb s "")
  | PList [] => false
  | PList (_ :: _) => true
  | PDict d => negb (Nat.eqb (size d) 0)
  end.

(** An [Optional[str]] as a Python value. *)
Definition of_opt (o : option string) : pyval :=
  match o with
  | Some s => PStr s
  | None => PNone
  end.

(** [a != b] where [a] is an [Optional[str]]: a string equals only the
    same string, [None] equals only [None]. *)
Definition opt_str_ne (a : option string) (b : pyval) : bool :=
  match a, b with
  | None, PNone => false
  | Some s, PStr t => negb (String.eqb s t)
  | _, _ => true
  end.

(** [a or b] on an [Optional[str]] with a string default. *)
Definition opt_or (a : option string) (b : string) : string :=
  match a with
  | Some s => if String.eqb s "" then b else s
  | None => b
  end.

(** How an f-string renders an [Optional[str]]. *)
Definition format_opt (o : option string) : string :=
  match o with
  | Some s => s
  | None => "None"
  end.

(** An expression either yields a value or raises an [Exception]; the
    exception is kept as its [str(e)], the only thing the handler reads. *)
Inductive result (A : Type) : Type :=
| Ok (a : A)
| Raise (e : string).
Arguments Ok {A} a.
Arguments Raise {A} e.

Definition attribute_error {A} (v : pyval) (attr : string) : result A :=
  Raise ("'" +:+ type_name v +:+ "' object has no attribute '" +:+ attr +:+ "'").

(** [v.get(k)]: the value at [k], [None] when the key is absent; only a
    [dict] has the method. *)
Definition get (v : pyval) (k : string) : result pyval :=
  match v with
  | PDict d => Ok (default PNone (d !! k))
  | _ => attribute_error v "get"
  end.

(** [s.split(c)] for a one-character separator. *)
Fixpoint str_split (c : Ascii.ascii) (s : string) : list string :=
  match s with
  | EmptyString => [EmptyString]
  | String a s' =>
      if Ascii.eqb a c then EmptyString :: str_split c s'
      else match str_split c s' with
           | w :: ws => String a w :: ws
           | [] => [String a EmptyString]
           end
  end.

(** [v.split('.')]: only a [str] has the method. *)
Definition split (v : pyval) (c : Ascii.ascii) : result (list string) :=
  match v with
  | PStr s => Ok (str_split c s)
  | _ => attribute_error v "split"
  end.

(** [l[i]] on a list. *)
Definition index {A} (l : list A) (i : nat) : result A :=
  match l !! i with
  | Some x => Ok x
  | None => Raise "list index out of range"
  end.

End Py.

Import Py.

(** ** The request, the response and the outside world *)

(** [request.args]: the query parameters in the order of the query string. *)
Record request := { args : list (string * string) }.

(** [request.args.get(k)]: the first value given for [k], else [None]. *)
Fixpoint args_get (k : string) (a : list (string * string)) : option string :=
  match a with
  | [] => None
  | (k', v) :: a' => if String.eqb k' k then Some v else args_get k a'
  end.

(** [if o:] on an [Optional[str]]. *)
Definition given (o : option string) : bool := truthy (of_opt o).

(** Where a redirect points: a path of this application, or the
    authorization endpoint followed by [?] and the url-encoded parameters
    (kept as the parameters, in their order). *)
Inductive location : Type :=
| Path (p : string)
| WithQuery (base : string) (params : list (string * pyval)).

(** What a view function returns.  The HTML pages are kept as the page
    they are, with the values interpolated into them. *)
Inductive body : Type :=
| AuthorizationErrorPage (error description : string)
| InvalidStatePage
| PlainText (s : string)
| TokenExchangeFailedPage (err : string)
| Redirect (to : location)
| JsonBody (d : gmap string pyval).

Record response := { resp_body : body; status : Z }.

(** [flask.redirect(location)] answers 302; a bare [dict] is sent as JSON
    with 200. *)
Definition redirect (to : location) : response :=
  {| resp_body := Redirect to; status := 302 |}.

Definition json_response (d : gmap string pyval) : response :=
  {| resp_body := JsonBody d; status := 200 |}.

(** The arguments of [requests.post(url, data=, headers=, timeout=)]. *)
Record post_request := {
  url : option string;
  data : gmap string pyval;
  headers : gmap string string;
  timeout : Z
}.

(** The [requests.Response] the handler looks at: [status_code], [text],
    and what [.json()] gives. *)
Record reply := {
  status_code : Z;
  text : string;
  json : result pyval
}.

(** The [OAUTH_CONFIG] mapping. *)
Record config := {
  client_id : option string;
  client_secret : option string;
  redirect_uri : option string;
  authorization_url : option string;
  token_url : option string;
  scope : string
}.

(** Everything the file reaches outside itself. *)
Record world := {
  os_getenv : string → option string;
  requests_post : post_request → result reply;
  urlsafe_b64decode : string → result (list Byte.byte);
  bytes_decode_utf8 : list Byte.byte → result string;
  json_loads : string → result pyval
}.

(** ** State and the monad of the [try] block *)

Record store := {
  session : gmap string pyval;
  outbound : list post_request;
  stdout : list string
}.

Definition with_session (f : gmap string pyval → gmap string pyval) (st : store) : store :=
  {| session := f (session st); outbound := outbound st; stdout := stdout st |}.

Definition sent (rq : post_request) (st : store) : store :=
  {| session := session st; outbound := outbound st ++ [rq]; stdout := stdout st |}.

Definition print (line : string) (st : store) : store :=
  {| session := session st; outbound := outbound st; stdout := stdout st ++ [line] |}.

(** A statement that may raise and may change the store; the changes
    made before a [raise] stay. *)
Definition M (A : Type) : Type := store → result A * store.

#[export] Instance M_ret : MRet M := λ A a st, (Ok a, st).

#[export] Instance M_bind : MBind M := λ A B f m st,
  match m st with
  | (Ok a, st') => f a st'
  | (Raise e, st') => (Raise e, st')
  end.

#[export] Instance result_ret : MRet result := λ A a, Ok a.

#[export] Instance result_bind : MBind result := λ A B f r,
  match r with
  | Ok a => f a
  | Raise e => Raise e
  end.

Definition raise {A} (e : string) : M A := λ st, (Raise e, st).

Definition eval {A} (r : result A) : M A := λ st, (r, st).

(** [session[k] = v] *)
Definition session_set (k : string) (v : pyval) : M unit :=
  λ st, (Ok (), with_session <[k := v]> st).

(** [if c: body] *)
Definition when (c : bool) (m : M unit) : M unit :=
  if c then m else mret ().

(** A view function: it runs on the store and always answers. *)
Definition view : Type := store → response * store.

(** ** The handlers *)

Section Handlers.

Variable W : world.

Definition OAUTH_CONFIG : config := {|
  client_id := os_getenv W "CLIENT_ID";
  client_secret := os_getenv W "CLIENT_SECRET";
  redirect_uri := os_getenv W "REDIRECT_URI";
  authorization_url := os_getenv W "AUTHORIZATION_URL";
  token_url := os_getenv W "TOKEN_URL";
  scope := "openid profile email"
|}.

(** [login]: the value [generate_state()] draws from [secrets] is the
    argument [fresh]. *)
Definition login (fresh : string) : view := λ st,
  let state := fresh in
  let st := with_session <["oauth_state" := PStr state]> st in
  let params :=
    [ ("client_id", of_opt (client_id OAUTH_CONFIG));
      ("redirect_uri", of_opt (redirect_uri OAUTH_CONFIG));
      ("response_type", PStr "code");
      ("scope", PStr (scope OAUTH_CONFIG));
      ("state", PStr state) ] in
  let auth_url := WithQuery (format_opt (authorization_url OAUTH_CONFIG)) params in
  (redirect auth_url, st).

(** The [token_data] and [headers] of the token exchange. *)
Definition token_data (code : option string) : gmap string pyval :=
  <["grant_type" := PStr "authorization_code"]>
  (<["code" := of_opt code]>
  (<["redirect_uri" := of_opt (redirect_uri OAUTH_CONFIG)]>
  (<["client_id" := of_opt (client_id OAUTH_CONFIG)]>
  (<["client_secret" := of_opt (client_secret OAUTH_CONFIG)]> ∅)))).

Definition token_headers : gmap string string :=
  <["Content-Type" := "application/x-www-form-urlencoded"]>
  (<["Accept" := "application/json"]> ∅).

Definition token_request (code : option string) : post_request := {|
  url := token_url OAUTH_CONFIG;
  data := token_data code;
  headers := token_headers;
  timeout := 10
|}.

(** [requests.post(...)]: the call is recorded, the library answers. *)
Definition post (rq : post_request) : M reply :=
  λ st, (requests_post W rq, sent rq st).

(** [json.loads(base64.urlsafe_b64decode(id_token.split('.')[1] + '==').decode('utf-8'))] *)
Definition id_token_payload (id_token : pyval) : result pyval :=
  parts ← split id_token "."%char;
  segment ← index parts 1;
  raw ← urlsafe_b64decode W (segment +:+ "==");
  txt ← bytes_decode_utf8 W raw;
  json_loads W txt.

(** The mapping stored under ['user']. *)
Definition user_claims (payload : pyval) : result pyval :=
  email ← get payload "email";
  name ← get payload "name";
  sub ← get payload "sub";
  mret (PDict (<["email" := email]> (<["name" := name]> (<["sub" := sub]> ∅)))).

Definition decode_id_token (id_token : pyval) : result pyval :=
  payload ← id_token_payload id_token;
  user_claims payload.

(** The [try] block after the reply has arrived. *)
Definition store_tokens (rsp : reply) : M response :=
  (if negb (status_code rsp =? 200)
   then raise ("Token endpoint returned " +:+ pretty (status_code rsp) +:+ ": " +:+ text rsp)
   else mret ());;
  token_response ← eval (json rsp);
  access_token ← eval (get token_response "access_token");
  refresh_token ← eval (get token_response "refresh_token");
  id_token ← eval (get token_response "id_token");
  session_set "access_token" access_token;;
  when (truthy refresh_token) (session_set "refresh_token" refresh_token);;
  when (truthy id_token)
    (user ← eval (decode_id_token id_token);
     session_set "user" user);;
  mret (redirect (Path "/")).

(** The whole [try] block. *)
Definition exchange (code : option string) : M response :=
  rsp ← post (token_request code);
  store_tokens rsp.

Definition callback (rq : request) : view := λ st,
  let code := args_get "code" (args rq) in
  let state := args_get "state" (args rq) in
  let error := args_get "error" (args rq) in
  let error_description := args_get "error_description" (args rq) in
  if given error then
    ({| resp_body :=
          AuthorizationErrorPage (format_opt error)
            (opt_or error_description "No description provided");
        status := 400 |}, st)
  else
    let stored_state := default PNone (session st !! "oauth_state") in
    let st := with_session (delete "oauth_state") st in
    if negb (given state) || opt_str_ne state stored_state then
      ({| resp_body := InvalidStatePage; status := 403 |}, st)
    else if negb (given code) then
      ({| resp_body := PlainText "No authorization code received"; status := 400 |}, st)
    else
      match exchange code st with
      | (Ok r, st) => (r, st)
      | (Raise e, st) =>
          ({| resp_body := TokenExchangeFailedPage e; status := 500 |},
           print ("Token exchange error: " +:+ e) st)
      end.

Definition logout : view := λ st,
  (redirect (Path "/"), with_session (λ _, ∅) st).

Definition profile : view := λ st,
  match session st !! "access_token" with
  | None =>
      ({| resp_body := JsonBody (<["error" := PStr "Not authenticated"]> ∅);
          status := 401 |}, st)
  | Some _ =>
      (json_response
         (<["message" := PStr "This is a protected resource"]>
          (<["user" := default PNone (session st !! "user")]> ∅)), st)
  end.

End Handlers.

(** ** Vocabulary of the statements *)

(** The anti-forgery token the session holds, [None] when it holds none. *)
Definition stored_state (st : store) : pyval :=
  default PNone (session st !! "oauth_state").

(** The request gets past the provider-error guard. *)
Definition reaches_state_check (rq : request) : Prop :=
  given (args_get "error" (args rq)) = false.

(** The request gets past all three guards and into the [try] block. *)
Definition reaches_exchange (rq : request) (st : store) : Prop :=
  reaches_state_check rq
  ∧ given (args_get "state" (args rq)) = true
  ∧ opt_str_ne (args_get "state" (args rq)) (stored_state st) = false
  ∧ given (args_get "code" (args rq)) = true.

(** The ways the token exchange for [code] fails: the call itself raises;
    the endpoint answers with a status other than 200; the body is not
    JSON; the body is a JSON object whose id token is there but has a
    payload that cannot be parsed. *)
Inductive exchange_fails (W : world) (code : option string) : Prop :=
| no_reply e :
    requests_post W (token_request W code) = Raise e →
    exchange_fails W code
| bad_status rsp :
    requests_post W (token_request W code) = Ok rsp →
    status_code rsp ≠ 200 →
    exchange_fails W code
| bad_body rsp e :
    requests_post W (token_request W code) = Ok rsp →
    json rsp = Raise e →
    exchange_fails W code
| bad_id_token rsp d e :
    requests_post W (token_request W code) = Ok rsp →
    json rsp = Ok (PDict d) →
    truthy (default PNone (d !! "id_token")) = true →
    id_token_payload W (default PNone (d !! "id_token")) = Raise e →
    exchange_fails W code.

(** What the [try] block comes to on a 200 reply that carries the JSON
    object [d]; [store_tokens_object] below proves it. *)
Definition stored (W : world) (d : gmap string pyval) (st : store) : result response * store :=
  let access_token := default PNone (d !! "access_token") in
  let refresh_token := default PNone (d !! "refresh_token") in
  let id_token := default PNone (d !! "id_token") in
  let st1 := with_session <["access_token" := access_token]> st in
  let st2 :=
    if truthy refresh_token
    then with_session <["refresh_token" := refresh_token]> st1 else st1 in
  if truthy id_token then
    match decode_id_token W id_token with
    | Ok user => (Ok (redirect (Path "/")), with_session <["user" := user]> st2)
    | Raise e => (Raise e, st2)
    end
  else (Ok (redirect (Path "/")), st2).

(** ** The form body *)





(** ** The home page and runs of the application *)

(** [v.get(k, dflt)]: the value at [k], [dflt] when the key is absent. *)
Definition get_or (v : pyval) (k : string) (dflt : pyval) : result pyval :=
  match v with
  | PDict d => Ok (default dflt (d !! k))
  | _ => attribute_error v "get"
  end.

(** The two pages of [home], both sent with 200: the one with the login
    link, and the welcome with the value interpolated into its heading. *)
Inductive home_page : Type :=
| LoginPage
| WelcomePage (email : pyval).

(** [home] reads the session and writes nothing; an exception here is not
    caught by the view. *)
Definition home (st : store) : result home_page :=
  match session st !! "user" with
  | Some user =>
      email ← get_or user "email" (PStr "User");
      mret (WelcomePage email)
  | None => mret LoginPage
  end.

(** One request of a browser to one of the five routes; the libraries may
    answer differently on each. *)
Inductive visit : Type :=
| GetHome
| GetLogin (W : world) (fresh : string)
| GetCallback (W : world) (rq : request)
| GetLogout
| GetProfile.

(** The store a visit leaves behind. *)
Definition after (v : visit) (st : store) : store :=
  match v with
  | GetHome => st
  | GetLogin W fresh => (login W fresh st).2
  | GetCallback W rq => (callback W rq st).2
  | GetLogout => (logout st).2
  | GetProfile => (profile st).2
  end.

Definition browse (vs : list visit) (st : store) : store :=
  foldl (λ st v, after v st) st vs.

Definition is_callback (v : visit) : bool :=
  match v with
  | GetCallback _ _ => true
  | _ => false
  end.

(** A browser that has no session cookie yet. *)
Definition first_visit : store :=
  {| session := ∅; outbound := []; stdout := [] |}.

(** The keys the handlers write. *)
Definition session_keys : gset string :=
  list_to_set ["oauth_state"; "access_token"; "refresh_token"; "user"].

Definition claim_keys : gset string :=
  list_to_set ["email"; "name"; "sub"].

(** What every session written by the handlers looks like. *)
Record session_ok (s : gmap string pyval) : Prop := {
  ok_keys : dom s ⊆ session_keys;
  ok_state : ∀ v, s !! "oauth_state" = Some v → ∃ t, v = PStr t;
  ok_refresh : ∀ v, s !! "refresh_token" = Some v →
               truthy v = true ∧ is_Some (s !! "access_token");
  ok_user : ∀ v, s !! "user" = Some v →
            (∃ d, v = PDict d ∧ dom d = claim_keys) ∧ is_Some (s !! "access_token")
}.

(** [c] does not occur in [s]. *)
Fixpoint free_of (c : Ascii.ascii) (s : string) : bool :=
  match s with
  | EmptyString => true
  | String a s' => negb (Ascii.eqb a c) && free_of c s'
  end.

(** ** A provider to run the handlers against *)

Module Demo.

Definition environ : gmap string string :=
  <["CLIENT_ID" := "demo-client"]>
  (<["CLIENT_SECRET" := "demo-secret"]>
  (<["REDIRECT_URI" := "http://localhost:5000/callback"]>
  (<["AUTHORIZATION_URL" := "https://idp.example/authorize"]>
  (<["TOKEN_URL" := "https://idp.example/token"]> ∅)))).

(** A world whose token endpoint gives [answer].  The decoders know one
    payload, the empty object [e30], and reject everything else. *)
Definition provider (answer : result reply) : world := {|
  os_getenv := λ k, environ !! k;
  requests_post := λ _, answer;
  urlsafe_b64decode := λ s,
    if String.eqb s "e30==" then Ok [Byte.x7b; Byte.x7d]
    else Raise "Incorrect padding";
  bytes_decode_utf8 := λ b,
    match b with
    | [Byte.x7b; Byte.x7d] => Ok "{}"
    | _ => Raise "'utf-8' codec can't decode bytes"
    end;
  json_loads := λ s,
    if String.eqb s "{}" then Ok (PDict ∅)
    else Raise "Expecting value: line 1 column 1 (char 0)"
|}.

Definition tokens (fields : gmap string pyval) : result reply :=
  Ok {| status_code := 200; text := ""; json := Ok (PDict fields) |}.

Definition granted : result reply :=
  tokens (<["access_token" := PStr "at-1"]> (<["refresh_token" := PStr "rt-1"]> ∅)).

Definition granted_with_claims : result reply :=
  tokens (<["access_token" := PStr "at-1"]> (<["id_token" := PStr "h.e30.s"]> ∅)).

Definition bad_id_token : result reply :=
  tokens (<["access_token" := PStr "at-1"]>
          (<["refresh_token" := PStr "rt-1"]>
          (<["id_token" := PStr "not-a-jwt"]> ∅))).

Definition no_access_token : result reply :=
  tokens (<["token_type" := PStr "Bearer"]> ∅).

Definition invalid_grant : result reply :=
  Ok {| status_code := 400; text := "invalid_grant"; json := Raise "Expecting value" |}.

Definition not_json : result reply :=
  Ok {| status_code := 200; text := "<html>"; json := Raise "Expecting value" |}.

Definition fresh_store : store :=
  {| session := ∅; outbound := []; stdout := [] |}.

(** The store after [/login] drew the token [tok]. *)
Definition logged_in (tok : string) : store :=
  {| session := <["oauth_state" := PStr tok]> ∅; outbound := []; stdout := [] |}.

Definition returning (code tok : string) : request :=
  {| args := [("code", code); ("state", tok)] |}.

Definition denied : request :=
  {| args := [("error", "access_denied")] |}.

Definition access_only : result reply :=
  tokens (<["access_token" := PStr "at-1"]> ∅).

Definition null_body : result reply :=
  Ok {| status_code := 200; text := "null"; json := Ok PNone |}.


(** A provider whose id token has the payload [W10], the empty array. *)
Definition array_claims : world := {|
  os_getenv := λ k, environ !! k;
  requests_post := λ _,
    tokens (<["access_token" := PStr "at-1"]> (<["id_token" := PStr "h.W10.s"]> ∅));
  urlsafe_b64decode := λ s,
    if String.eqb s "W10==" then Ok [Byte.x5b; Byte.x5d]
    else Raise "Incorrect padding";
  bytes_decode_utf8 := λ b,
    match b with
    | [Byte.x5b; Byte.x5d] => Ok "[]"
    | _ => Raise "'utf-8' codec can't decode bytes"
    end;
  json_loads := λ s,
    if String.eqb s "[]" then Ok (PList [])
    else Raise "Expecting value: line 1 column 1 (char 0)"
|}.

(** A browser that went through the flow before, as someone else, and
    is now back from the provider with the token [tok]. *)
Definition signed_in (tok : string) : store :=
  {| session :=
       <["oauth_state" := PStr tok]>
       (<["access_token" := PStr "at-0"]>
       (<["refresh_token" := PStr "rt-0"]>
       (<["user" := PDict (<["email" := PStr "old@example.org"]>
                           (<["name" := PNone]> (<["sub" := PStr "0"]> ∅)))]> ∅)));
     outbound := []; stdout := [] |}.

End Demo.

(** ** Properties *)

Section Properties.

Variable W : world.

Implicit Types (rq : request) (st : store) (rsp : reply) (d : gmap string pyval).

Ltac step_monad :=
  unfold mbind, M_bind, result_bind, mret, M_ret, result_ret, eval, raise,
    when, session_set in *; simpl in *.

Lemma given_Some o : given o = true ↔ ∃ s, o = Some s ∧ s ≠ "".
Proof.
  unfold given. destruct o as [s|]; simpl.
  - rewrite negb_true_iff. split.
    + intros Hs. exists s. split; [done|]. intros ->. by rewrite String.eqb_refl in Hs.
    + intros (s' & [= <-] & Hne). by apply String.eqb_neq.
  - split; [done|]. by intros (s & ? & _).
Qed.

(** *** The three guards of [callback] *)

Lemma callback_provider_error rq st :
  given (args_get "error" (args rq)) = true →
  callback W rq st =
    ({| resp_body :=
          AuthorizationErrorPage (format_opt (args_get "error" (args rq)))
            (opt_or (args_get "error_description" (args rq)) "No description provided");
        status := 400 |}, st).
Proof. intros H. unfold callback. by rewrite H. Qed.

Lemma callback_invalid_state rq st :
  reaches_state_check rq →
  negb (given (args_get "state" (args rq)))
    || opt_str_ne (args_get "state" (args rq)) (stored_state st) = true →
  callback W rq st =
    ({| resp_body := InvalidStatePage; status := 403 |},
     with_session (delete "oauth_state") st).
Proof.
  unfold reaches_state_check, stored_state, callback. intros -> H. by rewrite H.
Qed.

Lemma callback_no_code rq st :
  reaches_state_check rq →
  negb (given (args_get "state" (args rq)))
    || opt_str_ne (args_get "state" (args rq)) (stored_state st) = false →
  given (args_get "code" (args rq)) = false →
  callback W rq st =
    ({| resp_body := PlainText "No authorization code received"; status := 400 |},
     with_session (delete "oauth_state") st).
Proof.
  unfold reaches_state_check, stored_state, callback. intros -> H ->. by rewrite H.
Qed.

Lemma callback_exchange rq st :
  reaches_exchange rq st →
  callback W rq st =
    match exchange W (args_get "code" (args rq)) (with_session (delete "oauth_state") st) with
    | (Ok r, st') => (r, st')
    | (Raise e, st') =>
        ({| resp_body := TokenExchangeFailedPage e; status := 500 |},
         print ("Token exchange error: " +:+ e) st')
    end.
Proof.
  unfold reaches_exchange, reaches_state_check, stored_state, callback.
  intros (-> & -> & -> & ->). done.
Qed.

(** Every request takes exactly one of the four routes through the guards. *)
Lemma callback_routes rq st :
  given (args_get "error" (args rq)) = true
  ∨ (reaches_state_check rq
     ∧ negb (given (args_get "state" (args rq)))
         || opt_str_ne (args_get "state" (args rq)) (stored_state st) = true)
  ∨ (reaches_state_check rq
     ∧ negb (given (args_get "state" (args rq)))
         || opt_str_ne (args_get "state" (args rq)) (stored_state st) = false
     ∧ given (args_get "code" (args rq)) = false)
  ∨ reaches_exchange rq st.
Proof.
  unfold reaches_exchange, reaches_state_check.
  destruct (given (args_get "error" (args rq))); [by left|right].
  destruct (given (args_get "state" (args rq))); simpl; [|by left].
  destruct (opt_str_ne _ _); [by left|right].
  destruct (given (args_get "code" (args rq))); [by right|by left].
Qed.

(** *** The [try] block *)

Lemma store_tokens_not_200 rsp st :
  status_code rsp ≠ 200 →
  store_tokens W rsp st =
    (Raise ("Token endpoint returned " +:+ pretty (status_code rsp) +:+ ": " +:+ text rsp), st).
Proof.
  intros H. unfold store_tokens. step_monad.
  by destruct (Z.eqb_spec (status_code rsp) 200).
Qed.

Lemma store_tokens_not_json rsp st e :
  status_code rsp = 200 → json rsp = Raise e →
  store_tokens W rsp st = (Raise e, st).
Proof.
  intros H200 Hj. unfold store_tokens. step_monad. by rewrite H200, Hj.
Qed.

Lemma store_tokens_object rsp d st :
  status_code rsp = 200 → json rsp = Ok (PDict d) →
  store_tokens W rsp st = stored W d st.
Proof.
  intros H200 Hj. unfold store_tokens, stored. step_monad. rewrite H200, Hj. simpl.
  destruct (truthy (default PNone (d !! "refresh_token")));
    destruct (truthy (default PNone (d !! "id_token"))); simpl; try done;
    by destruct (decode_id_token W _).
Qed.

Lemma store_tokens_cases rsp st :
  (∃ e, store_tokens W rsp st = (Raise e, st))
  ∨ (∃ d, status_code rsp = 200 ∧ json rsp = Ok (PDict d)
          ∧ store_tokens W rsp st = stored W d st).
Proof.
  destruct (decide (status_code rsp = 200)) as [H200|Hn].
  - destruct (json rsp) as [v|e] eqn:Hj.
    + destruct v; try (right; eexists; by eauto using store_tokens_object);
        left; eexists; unfold store_tokens; step_monad; by rewrite H200, Hj.
    + left. eauto using store_tokens_not_json.
  - left. eauto using store_tokens_not_200.
Qed.

Lemma stored_outbound d st : outbound (stored W d st).2 = outbound st.
Proof.
  unfold stored.
  repeat (case_match; simpl; try done).
Qed.

Lemma stored_stdout d st : stdout (stored W d st).2 = stdout st.
Proof.
  unfold stored.
  repeat (case_match; simpl; try done).
Qed.

Lemma stored_access_token d st :
  session (stored W d st).2 !! "access_token"
  = Some (default PNone (d !! "access_token")).
Proof.
  unfold stored.
  repeat (case_match; simpl; try done); by simplify_map_eq.
Qed.

Lemma stored_refresh_token d st :
  truthy (default PNone (d !! "refresh_token")) = true →
  session (stored W d st).2 !! "refresh_token"
  = Some (default PNone (d !! "refresh_token")).
Proof.
  intros Hr. unfold stored. rewrite Hr.
  repeat (case_match; simpl; try done); by simplify_map_eq.
Qed.

(** The block writes no key other than these three. *)
Lemma stored_frame d st k :
  k ≠ "access_token" → k ≠ "refresh_token" → k ≠ "user" →
  session (stored W d st).2 !! k = session st !! k.
Proof.
  intros Ha Hr Hu. unfold stored.
  repeat (case_match; simpl; try done); by simplify_map_eq.
Qed.

Lemma store_tokens_outbound rsp st :
  outbound (store_tokens W rsp st).2 = outbound st.
Proof.
  destruct (store_tokens_cases rsp st) as [[e ->]|(d & _ & _ & ->)]; [done|].
  apply stored_outbound.
Qed.

Lemma store_tokens_frame rsp st k :
  k ≠ "access_token" → k ≠ "refresh_token" → k ≠ "user" →
  session (store_tokens W rsp st).2 !! k = session st !! k.
Proof.
  intros. destruct (store_tokens_cases rsp st) as [[e ->]|(d & _ & _ & ->)]; [done|].
  by apply stored_frame.
Qed.

Lemma exchange_answered code st rsp :
  requests_post W (token_request W code) = Ok rsp →
  exchange W code st = store_tokens W rsp (sent (token_request W code) st).
Proof. intros H. unfold exchange, post. step_monad. by rewrite H. Qed.

Lemma exchange_unanswered code st e :
  requests_post W (token_request W code) = Raise e →
  exchange W code st = (Raise e, sent (token_request W code) st).
Proof. intros H. unfold exchange, post. step_monad. by rewrite H. Qed.

(** The block posts once, whatever happens next. *)
Lemma exchange_outbound code st :
  outbound (exchange W code st).2 = outbound st ++ [token_request W code].
Proof.
  destruct (requests_post W (token_request W code)) as [rsp|e] eqn:Hp.
  - rewrite (exchange_answered _ _ _ Hp). by rewrite store_tokens_outbound.
  - by rewrite (exchange_unanswered _ _ _ Hp).
Qed.

Lemma exchange_frame code st k :
  k ≠ "access_token" → k ≠ "refresh_token" → k ≠ "user" →
  session (exchange W code st).2 !! k = session st !! k.
Proof.
  intros. destruct (requests_post W (token_request W code)) as [rsp|e] eqn:Hp.
  - rewrite (exchange_answered _ _ _ Hp). by rewrite store_tokens_frame.
  - by rewrite (exchange_unanswered _ _ _ Hp).
Qed.

(** *** [callback] as a whole *)

Lemma callback_exchange_outbound rq st :
  reaches_exchange rq st →
  outbound (callback W rq st).2
  = outbound st ++ [token_request W (args_get "code" (args rq))].
Proof.
  intros H. rewrite (callback_exchange _ _ H).
  pose proof (exchange_outbound (args_get "code" (args rq))
                (with_session (delete "oauth_state") st)) as Ho.
  destruct (exchange _ _ _) as [[r|e] st']; simpl in *; done.
Qed.

Lemma callback_exchange_frame rq st k :
  reaches_exchange rq st →
  k ≠ "access_token" → k ≠ "refresh_token" → k ≠ "user" →
  session (callback W rq st).2 !! k = delete "oauth_state" (session st) !! k.
Proof.
  intros H Ha Hr Hu. rewrite (callback_exchange _ _ H).
  pose proof (exchange_frame (args_get "code" (args rq))
                (with_session (delete "oauth_state") st) k Ha Hr Hu) as Hf.
  destruct (exchange _ _ _) as [[r|e] st']; simpl in *; done.
Qed.

(** A request that stops at a guard makes no call. *)
Lemma callback_guarded_outbound rq st :
  ¬ reaches_exchange rq st →
  outbound (callback W rq st).2 = outbound st.
Proof.
  intros Hn.
  destruct (callback_routes rq st) as [He|[[Hc Hs]|[(Hc & Hs & Hk)|Hx]]].
  - by rewrite callback_provider_error.
  - by rewrite callback_invalid_state.
  - by rewrite callback_no_code.
  - done.
Qed.

(** The token is gone once the state check has run. *)
Lemma callback_pops_state rq st :
  reaches_state_check rq →
  session (callback W rq st).2 !! "oauth_state" = None.
Proof.
  intros Hc.
  destruct (callback_routes rq st) as [He|[[_ Hs]|[(_ & Hs & Hk)|Hx]]].
  - unfold reaches_state_check in Hc. congruence.
  - rewrite callback_invalid_state by done. apply lookup_delete_eq.
  - rewrite callback_no_code by done. apply lookup_delete_eq.
  - rewrite callback_exchange_frame by done. apply lookup_delete_eq.
Qed.

(** X20: [callback] has four answers: back to [/], 400, 403, 500. *)
Lemma callback_status rq st :
  status (callback W rq st).1 ∈ [302; 400; 403; 500].
Proof.
  destruct (callback_routes rq st) as [He|[[Hc Hs]|[(Hc & Hs & Hk)|Hx]]].
  - rewrite callback_provider_error by done. set_solver.
  - rewrite callback_invalid_state by done. set_solver.
  - rewrite callback_no_code by done. set_solver.
  - rewrite callback_exchange by done.
    set (st0 := with_session _ _).
    assert (∀ r st', exchange W (args_get "code" (args rq)) st0 = (Ok r, st') →
              r = redirect (Path "/")) as Hok.
    { intros r st'.
      destruct (requests_post W (token_request W (args_get "code" (args rq))))
        as [rsp|e] eqn:Hp.
      - rewrite (exchange_answered _ _ _ Hp).
        destruct (store_tokens_cases rsp (sent (token_request W (args_get "code" (args rq))) st0))
          as [[e ->]|(d & _ & _ & ->)]; [done|].
        unfold stored. repeat (case_match; simpl; try done); congruence.
      - by rewrite (exchange_unanswered _ _ _ Hp). }
    destruct (exchange _ _ _) as [[r|e] st'] eqn:Hex; simpl.
    + rewrite (Hok _ _ eq_refl). set_solver.
    + set_solver.
Qed.

(** *** The claims *)

(** C1 (as amended): a request that carries no provider error and whose
    [state] parameter is missing, or differs from the anti-forgery token
    held in the session, is answered with 403. *)
Theorem callback_bad_state_403 rq st :
  given (args_get "error" (args rq)) = false →
  args_get "state" (args rq) = None
  ∨ opt_str_ne (args_get "state" (args rq)) (stored_state st) = true →
  status (callback W rq st).1 = 403.
Proof.
  intros He Hs. rewrite callback_invalid_state; [done|done|].
  destruct Hs as [->| ->]; [done|]. apply orb_true_r.
Qed.

(** C2: a request with a non-empty [error] parameter is answered with 400
    and nothing is posted to the token endpoint while it is handled. *)
Theorem callback_provider_error_400 rq st e :
  args_get "error" (args rq) = Some e → e ≠ "" →
  status (callback W rq st).1 = 400
  ∧ outbound (callback W rq st).2 = outbound st.
Proof.
  intros He Hne. rewrite callback_provider_error; [done|].
  apply given_Some. eauto.
Qed.

(** C3: a [callback] that reaches the state check leaves no anti-forgery
    token in the session, whether the comparison succeeded or not; so the
    same request sent a second time is answered with 403, and so is any
    other [callback] that reaches the check next, whatever [state] it
    presents and whatever the provider would say. *)
Theorem callback_state_single_use rq st :
  reaches_state_check rq →
  session (callback W rq st).2 !! "oauth_state" = None
  ∧ status (callback W rq (callback W rq st).2).1 = 403
  ∧ ∀ W' rq', reaches_state_check rq' →
      status (callback W' rq' (callback W rq st).2).1 = 403.
Proof.
  intros Hc. pose proof (callback_pops_state rq st Hc) as Hgone.
  split; [done|].
  cut (∀ W' rq', reaches_state_check rq' →
         status (callback W' rq' (callback W rq st).2).1 = 403);
    [by auto|].
  intros W' rq' Hc'.
  remember (callback W rq st).2 as st1 eqn:Hst1. clear Hst1.
  unfold callback. unfold reaches_state_check in Hc'. rewrite Hc', Hgone. simpl.
  destruct (args_get "state" (args rq')) as [s|]; simpl; [|done].
  by rewrite orb_true_r.
Qed.

(** C4: [profile] answers 401 when the session has no [access_token] key,
    and otherwise answers 200 with the claims stored under [user]
    ([None] when there are none). *)
Theorem profile_requires_access_token st :
  (session st !! "access_token" = None
   ∧ status (profile st).1 = 401
   ∧ resp_body (profile st).1 = JsonBody (<["error" := PStr "Not authenticated"]> ∅))
  ∨ (is_Some (session st !! "access_token")
     ∧ status (profile st).1 = 200
     ∧ ∃ d, resp_body (profile st).1 = JsonBody d
            ∧ d !! "user" = Some (default PNone (session st !! "user"))).
Proof.
  unfold profile. destruct (session st !! "access_token") as [tok|] eqn:Ht.
  - right. split; [by eexists|]. split; [done|]. eexists. split; [done|].
    by simplify_map_eq.
  - by left.
Qed.





(** C6: when the token exchange fails (the endpoint answers with a status
    other than 200, or with a body that is not JSON, or with an id token
    whose payload cannot be parsed, or does not answer at all), [callback]
    answers 500, and the one POST it made is the only one: the exchange is
    not tried again. *)
Theorem callback_exchange_failure_500 rq st :
  reaches_exchange rq st →
  exchange_fails W (args_get "code" (args rq)) →
  status (callback W rq st).1 = 500
  ∧ outbound (callback W rq st).2
    = outbound st ++ [token_request W (args_get "code" (args rq))].
Proof.
  intros Hx Hfail. split; [|by apply callback_exchange_outbound].
  rewrite (callback_exchange _ _ Hx).
  destruct Hfail as [e Hp|rsp Hp Hn|rsp e Hp Hj|rsp d e Hp Hj Hid Hpay].
  - by rewrite (exchange_unanswered _ _ _ Hp).
  - rewrite (exchange_answered _ _ _ Hp). by rewrite store_tokens_not_200.
  - rewrite (exchange_answered _ _ _ Hp).
    destruct (decide (status_code rsp = 200)) as [H200|Hn].
    + by rewrite (store_tokens_not_json _ _ e).
    + by rewrite store_tokens_not_200.
  - rewrite (exchange_answered _ _ _ Hp).
    destruct (decide (status_code rsp = 200)) as [H200|Hn].
    + rewrite (store_tokens_object _ d) by done.
      unfold stored, decode_id_token. by rewrite Hid, Hpay.
    + by rewrite store_tokens_not_200.
Qed.

(** C7: [logout] empties the session, whatever it held, and redirects
    to [/]. *)
Theorem logout_clears_session st :
  (logout st).1 = redirect (Path "/")
  ∧ session (logout st).2 = ∅
  ∧ session (logout st).2 !! "oauth_state" = None
  ∧ session (logout st).2 !! "access_token" = None
  ∧ session (logout st).2 !! "refresh_token" = None
  ∧ session (logout st).2 !! "user" = None.
Proof. by repeat split. Qed.

(** C8: a 200 answer whose JSON object has no [access_token] field still
    puts the key [access_token] in the session, with the value [None], and
    [profile] then answers 200. *)
Theorem callback_stores_absent_access_token rq st rsp d :
  reaches_exchange rq st →
  requests_post W (token_request W (args_get "code" (args rq))) = Ok rsp →
  status_code rsp = 200 →
  json rsp = Ok (PDict d) →
  d !! "access_token" = None →
  session (callback W rq st).2 !! "access_token" = Some PNone
  ∧ status (profile (callback W rq st).2).1 = 200.
Proof.
  intros Hx Hp H200 Hj Hd.
  assert (session (callback W rq st).2 !! "access_token" = Some PNone) as Ha.
  { rewrite (callback_exchange _ _ Hx), (exchange_answered _ _ _ Hp).
    rewrite (store_tokens_object _ d) by done.
    pose proof (stored_access_token d
      (sent (token_request W (args_get "code" (args rq)))
         (with_session (delete "oauth_state") st))) as Hs.
    rewrite Hd in Hs. by destruct (stored _ _ _) as [[r|e] st']. }
  split; [done|]. unfold profile. by rewrite Ha.
Qed.

(** C9: a request answered 400 for its [error] parameter leaves the session
    as it was, anti-forgery token included (and prints and posts nothing). *)
Theorem callback_provider_error_frame rq st e :
  args_get "error" (args rq) = Some e → e ≠ "" →
  status (callback W rq st).1 = 400
  ∧ (callback W rq st).2 = st
  ∧ session (callback W rq st).2 !! "oauth_state" = session st !! "oauth_state".
Proof.
  intros He Hne. rewrite callback_provider_error; [done|].
  apply given_Some. eauto.
Qed.

(** C10: a 200 answer with an [access_token] and an id token that cannot
    be decoded is answered with 500, yet the session already holds the
    access token, and the refresh token when one came. *)
Theorem callback_failure_keeps_tokens rq st rsp d tok e :
  reaches_exchange rq st →
  requests_post W (token_request W (args_get "code" (args rq))) = Ok rsp →
  status_code rsp = 200 →
  json rsp = Ok (PDict d) →
  d !! "access_token" = Some tok →
  truthy (default PNone (d !! "id_token")) = true →
  decode_id_token W (default PNone (d !! "id_token")) = Raise e →
  status (callback W rq st).1 = 500
  ∧ session (callback W rq st).2 !! "access_token" = Some tok
  ∧ (truthy (default PNone (d !! "refresh_token")) = true →
     session (callback W rq st).2 !! "refresh_token"
     = Some (default PNone (d !! "refresh_token"))).
Proof.
  intros Hx Hp H200 Hj Hd Hid Hdec.
  rewrite (callback_exchange _ _ Hx), (exchange_answered _ _ _ Hp).
  rewrite (store_tokens_object _ d) by done.
  set (st0 := sent _ _).
  pose proof (stored_access_token d st0) as Ha. rewrite Hd in Ha. simpl in Ha.
  pose proof (stored_refresh_token d st0) as Hr.
  assert (∃ st', stored W d st0 = (Raise e, st')) as [st' Hs].
  { unfold stored. rewrite Hid, Hdec. eauto. }
  rewrite Hs in *. done.
Qed.

End Properties.

(** ** The properties on the demo provider *)

Import Demo.

(** [/login] leaves the drawn token in the session and sends the browser to
    the authorization endpoint with it. *)
Example login_stores_state :
  login (provider granted) "tok" fresh_store
  = (redirect (WithQuery "https://idp.example/authorize"
                 [ ("client_id", PStr "demo-client");
                   ("redirect_uri", PStr "http://localhost:5000/callback");
                   ("response_type", PStr "code");
                   ("scope", PStr "openid profile email");
                   ("state", PStr "tok") ]),
     logged_in "tok").
Proof. reflexivity. Qed.

(** The flow that works: the provider sends the browser back with the code
    and the token, the tokens land in the session, [profile] opens. *)
Example callback_granted :
  let '(r, st) := callback (provider granted) (returning "c" "tok") (logged_in "tok") in
  r = redirect (Path "/")
  ∧ map_to_list (session st)
    = [("access_token", PStr "at-1"); ("refresh_token", PStr "rt-1")]
  ∧ length (outbound st) = 1%nat
  ∧ status (profile st).1 = 200.
Proof. vm_compute. done. Qed.

(** An id token whose payload is the empty object gives three empty claims. *)
Example callback_granted_with_claims :
  session (callback (provider granted_with_claims) (returning "c" "tok")
             (logged_in "tok")).2 !! "user"
  = Some (PDict (<["email" := PNone]> (<["name" := PNone]> (<["sub" := PNone]> ∅)))).
Proof. vm_compute. done. Qed.

(** A body that is not JSON is a failed exchange. *)
Example callback_not_json :
  (callback (provider not_json) (returning "c" "tok") (logged_in "tok")).1
  = {| resp_body := TokenExchangeFailedPage "Expecting value"; status := 500 |}.
Proof. reflexivity. Qed.

(** [str.split] keeps empty pieces. *)
Example str_split_pieces :
  str_split "." "a.b..c" = ["a"; "b"; ""; "c"] ∧ str_split "." "" = [""].
Proof. split; reflexivity. Qed.

(** C1 as first stated fails: with a provider error on the request, a
    missing [state] is answered with 400, the error guard coming first. *)
Lemma callback_missing_state_with_error_400 :
  ¬ (∀ (W : world) (rq : request) (st : store),
       args_get "state" (args rq) = None
       ∨ opt_str_ne (args_get "state" (args rq)) (stored_state st) = true →
       status (callback W rq st).1 = 403).
Proof.
  intros H.
  specialize (H (provider granted) denied (logged_in "tok") (or_introl eq_refl)).
  vm_compute in H. discriminate H.
Qed.

Lemma callback_bad_state_403_witness :
  given (args_get "error" (args (returning "c" "other"))) = false
  ∧ opt_str_ne (args_get "state" (args (returning "c" "other")))
      (stored_state (logged_in "tok")) = true
  ∧ status (callback (provider granted) (returning "c" "other") (logged_in "tok")).1 = 403.
Proof.
  split; [reflexivity|]. split; [reflexivity|].
  apply (callback_bad_state_403 (provider granted) (returning "c" "other") (logged_in "tok"));
    [reflexivity | right; reflexivity].
Defined.

Lemma callback_provider_error_400_witness :
  args_get "error" (args denied) = Some "access_denied"
  ∧ status (callback (provider granted) denied (logged_in "tok")).1 = 400
  ∧ outbound (callback (provider granted) denied (logged_in "tok")).2 = [].
Proof.
  split; [reflexivity|].
  apply (callback_provider_error_400 (provider granted) denied (logged_in "tok") "access_denied");
    [reflexivity | discriminate].
Defined.

Lemma callback_state_single_use_witness :
  reaches_state_check (returning "c" "tok")
  ∧ session (callback (provider granted) (returning "c" "tok") (logged_in "tok")).2
      !! "oauth_state" = None
  ∧ status (callback (provider granted) (returning "c" "tok")
              (callback (provider granted) (returning "c" "tok") (logged_in "tok")).2).1
    = 403.
Proof.
  assert (reaches_state_check (returning "c" "tok")) as Hc by reflexivity.
  split; [exact Hc|].
  destruct (callback_state_single_use (provider granted) (returning "c" "tok")
              (logged_in "tok") Hc) as (Hgone & Hagain & _).
  split; [exact Hgone|]. exact Hagain.
Defined.



Lemma callback_exchange_failure_500_witness :
  reaches_exchange (returning "c" "tok") (logged_in "tok")
  ∧ exchange_fails (provider invalid_grant) (Some "c")
  ∧ status (callback (provider invalid_grant) (returning "c" "tok") (logged_in "tok")).1 = 500
  ∧ length (outbound (callback (provider invalid_grant) (returning "c" "tok")
                        (logged_in "tok")).2) = 1%nat.
Proof.
  assert (reaches_exchange (returning "c" "tok") (logged_in "tok")) as Hx
    by (repeat split; reflexivity).
  assert (exchange_fails (provider invalid_grant) (Some "c")) as Hfail.
  { apply bad_status
      with {| status_code := 400; text := "invalid_grant"; json := Raise "Expecting value" |};
      [reflexivity | discriminate]. }
  split; [exact Hx|]. split; [exact Hfail|].
  destruct (callback_exchange_failure_500 (provider invalid_grant) (returning "c" "tok")
              (logged_in "tok") Hx Hfail) as [H500 Hout].
  split; [exact H500|]. rewrite Hout. reflexivity.
Defined.

Lemma callback_stores_absent_access_token_witness :
  reaches_exchange (returning "c" "tok") (logged_in "tok")
  ∧ session (callback (provider no_access_token) (returning "c" "tok") (logged_in "tok")).2
      !! "access_token" = Some PNone
  ∧ status (profile (callback (provider no_access_token) (returning "c" "tok")
                       (logged_in "tok")).2).1 = 200.
Proof.
  assert (reaches_exchange (returning "c" "tok") (logged_in "tok")) as Hx
    by (repeat split; reflexivity).
  split; [exact Hx|].
  apply (callback_stores_absent_access_token (provider no_access_token)
           (returning "c" "tok") (logged_in "tok")
           {| status_code := 200; text := "";
              json := Ok (PDict (<["token_type" := PStr "Bearer"]> ∅)) |}
           (<["token_type" := PStr "Bearer"]> ∅) Hx);
    reflexivity.
Defined.

Lemma callback_provider_error_frame_witness :
  args_get "error" (args denied) = Some "access_denied"
  ∧ (callback (provider granted) denied (logged_in "tok")).2 = logged_in "tok"
  ∧ session (callback (provider granted) denied (logged_in "tok")).2 !! "oauth_state"
    = Some (PStr "tok").
Proof.
  split; [reflexivity|].
  destruct (callback_provider_error_frame (provider granted) denied (logged_in "tok")
              "access_denied" eq_refl) as (_ & Hsame & Htok).
  { discriminate. }
  split; [exact Hsame|]. rewrite Htok. reflexivity.
Defined.

Lemma callback_failure_keeps_tokens_witness :
  reaches_exchange (returning "c" "tok") (logged_in "tok")
  ∧ decode_id_token (provider bad_id_token) (PStr "not-a-jwt")
    = Raise "list index out of range"
  ∧ status (callback (provider bad_id_token) (returning "c" "tok") (logged_in "tok")).1 = 500
  ∧ session (callback (provider bad_id_token) (returning "c" "tok") (logged_in "tok")).2
      !! "access_token" = Some (PStr "at-1")
  ∧ session (callback (provider bad_id_token) (returning "c" "tok") (logged_in "tok")).2
      !! "refresh_token" = Some (PStr "rt-1").
Proof.
  assert (reaches_exchange (returning "c" "tok") (logged_in "tok")) as Hx
    by (repeat split; reflexivity).
  split; [exact Hx|]. split; [reflexivity|].
  destruct (callback_failure_keeps_tokens (provider bad_id_token) (returning "c" "tok")
              (logged_in "tok")
              {| status_code := 200; text := "";
                 json := Ok (PDict (<["access_token" := PStr "at-1"]>
                                    (<["refresh_token" := PStr "rt-1"]>
                                    (<["id_token" := PStr "not-a-jwt"]> ∅)))) |}
              (<["access_token" := PStr "at-1"]>
               (<["refresh_token" := PStr "rt-1"]>
               (<["id_token" := PStr "not-a-jwt"]> ∅)))
              (PStr "at-1") "list index out of range"
              Hx eq_refl eq_refl eq_refl eq_refl eq_refl eq_refl)
    as (H500 & Ha & Hr).
  split; [exact H500|]. split; [exact Ha|]. exact (Hr eq_refl).
Defined.

(** ** More of [callback] *)

Section Callback.

Variable W : world.

Implicit Types (rq : request) (st : store) (rsp : reply) (d : gmap string pyval).

Lemma opt_str_ne_false s v : opt_str_ne (Some s) v = false ↔ v = PStr s.
Proof.
  destruct v; simpl; try (split; [discriminate|by intros [=]]).
  rewrite negb_false_iff, String.eqb_eq. split; [by intros ->|by intros [= ->]].
Qed.

(** Passing the three guards, said on the request and the session. *)
Lemma reaches_exchange_spec rq st :
  reaches_exchange rq st ↔
  given (args_get "error" (args rq)) = false
  ∧ ∃ tok code,
      args_get "state" (args rq) = Some tok ∧ tok ≠ ""
      ∧ session st !! "oauth_state" = Some (PStr tok)
      ∧ args_get "code" (args rq) = Some code ∧ code ≠ "".
Proof.
  unfold reaches_exchange, reaches_state_check, stored_state. split.
  - intros (He & Hs & Hne & Hc).
    apply given_Some in Hs as (tok & Hs & Htok).
    apply given_Some in Hc as (code & Hc & Hcode).
    split; [done|]. exists tok, code. rewrite Hs in Hne.
    apply opt_str_ne_false in Hne.
    destruct (session st !! "oauth_state") as [v|]; simpl in Hne; [|done].
    by subst v.
  - intros (He & tok & code & Hs & Htok & Hst & Hc & Hcode).
    split; [done|]. rewrite Hs, Hc, Hst.
    split; [apply given_Some; eauto|].
    split; [by apply opt_str_ne_false|apply given_Some; eauto].
Qed.

(** The [try] block returns only through its last line, and only after a
    200 reply with a JSON object. *)
Lemma exchange_ok_inv code st r st' :
  exchange W code st = (Ok r, st') →
  r = redirect (Path "/")
  ∧ ∃ rsp d,
      requests_post W (token_request W code) = Ok rsp
      ∧ status_code rsp = 200 ∧ json rsp = Ok (PDict d)
      ∧ stored W d (sent (token_request W code) st) = (Ok r, st').
Proof.
  destruct (requests_post W (token_request W code)) as [rsp|e] eqn:Hp.
  - rewrite (exchange_answered _ _ _ _ Hp).
    destruct (store_tokens_cases W rsp (sent (token_request W code) st))
      as [[e ->]|(d & H200 & Hj & ->)]; [done|].
    intros Hs. split; [|by eauto 10].
    revert Hs. unfold stored. repeat (case_match; simpl; try done); congruence.
  - by rewrite (exchange_unanswered _ _ _ _ Hp).
Qed.

Lemma exchange_stdout code st : stdout (exchange W code st).2 = stdout st.
Proof.
  destruct (requests_post W (token_request W code)) as [rsp|e] eqn:Hp.
  - rewrite (exchange_answered _ _ _ _ Hp).
    destruct (store_tokens_cases W rsp (sent (token_request W code) st))
      as [[e ->]|(d & _ & _ & ->)]; [done|].
    by rewrite stored_stdout.
  - by rewrite (exchange_unanswered _ _ _ _ Hp).
Qed.

(** The two ways out of the [try] block, seen from [callback]. *)
Lemma callback_exchange_cases rq st :
  reaches_exchange rq st →
  let st0 := with_session (delete "oauth_state") st in
  (∃ st', exchange W (args_get "code" (args rq)) st0 = (Ok (redirect (Path "/")), st')
          ∧ callback W rq st = (redirect (Path "/"), st'))
  ∨ (∃ e st', exchange W (args_get "code" (args rq)) st0 = (Raise e, st')
              ∧ callback W rq st
                = ({| resp_body := TokenExchangeFailedPage e; status := 500 |},
                   print ("Token exchange error: " +:+ e) st')).
Proof.
  intros Hx st0. rewrite (callback_exchange _ _ _ Hx). fold st0.
  destruct (exchange W _ st0) as [[r|e] st'] eqn:Hex.
  - left. apply exchange_ok_inv in Hex as Hr. destruct Hr as [-> _]. eauto.
  - right. eauto.
Qed.

(** X1: a request that echoes the stored token but brings no code is
    answered 400 with the plain text; the token is spent all the same and
    nothing is posted. *)
Theorem callback_without_code_400 rq st tok :
  given (args_get "error" (args rq)) = false →
  args_get "state" (args rq) = Some tok → tok ≠ "" →
  session st !! "oauth_state" = Some (PStr tok) →
  given (args_get "code" (args rq)) = false →
  (callback W rq st).1
  = {| resp_body := PlainText "No authorization code received"; status := 400 |}
  ∧ session (callback W rq st).2 = delete "oauth_state" (session st)
  ∧ outbound (callback W rq st).2 = outbound st.
Proof.
  intros He Hs Htok Hst Hc. rewrite callback_no_code; [done|done| |done].
  unfold stored_state. rewrite Hs, Hst.
  apply orb_false_intro.
  - apply negb_false_iff, given_Some. eauto.
  - by apply opt_str_ne_false.
Qed.

(** X2: [callback] posts to the token endpoint exactly for the requests
    that carry no provider error, echo the non-empty token the session
    holds, and bring a non-empty code. *)
Theorem callback_posts_iff_guards_pass rq st :
  outbound (callback W rq st).2 ≠ outbound st ↔
  given (args_get "error" (args rq)) = false
  ∧ ∃ tok code,
      args_get "state" (args rq) = Some tok ∧ tok ≠ ""
      ∧ session st !! "oauth_state" = Some (PStr tok)
      ∧ args_get "code" (args rq) = Some code ∧ code ≠ "".
Proof.
  rewrite <- reaches_exchange_spec. split.
  - intros Hcall. destruct (decide (reaches_exchange rq st)) as [Hx|Hn]; [done|].
    by rewrite callback_guarded_outbound in Hcall.
  - intros Hx. rewrite callback_exchange_outbound by done.
    intros Heq. apply (f_equal length) in Heq. rewrite length_app in Heq.
    simpl in Heq. lia.
Qed.

(** X3: [callback] leaves every key other than [oauth_state],
    [access_token], [refresh_token] and [user] as it found it. *)
Theorem callback_session_frame rq st k :
  k ∉ session_keys →
  session (callback W rq st).2 !! k = session st !! k.
Proof.
  unfold session_keys. intros Hk.
  assert (k ≠ "oauth_state" ∧ k ≠ "access_token" ∧ k ≠ "refresh_token" ∧ k ≠ "user")
    as (Ho & Ha & Hr & Hu) by set_solver.
  destruct (callback_routes rq st) as [He|[[Hc Hs]|[(Hc & Hs & Hcode)|Hx]]].
  - by rewrite callback_provider_error.
  - rewrite callback_invalid_state by done. simpl. by rewrite lookup_delete_ne.
  - rewrite callback_no_code by done. simpl. by rewrite lookup_delete_ne.
  - rewrite callback_exchange_frame by done. by rewrite lookup_delete_ne.
Qed.

(** X4: a [callback] that does not get into the [try] block changes
    nothing in the session but the anti-forgery token: whoever was signed
    in stays signed in, with the same tokens and claims. *)
Theorem callback_rejected_keeps_login rq st k :
  ¬ reaches_exchange rq st → k ≠ "oauth_state" →
  session (callback W rq st).2 !! k = session st !! k.
Proof.
  intros Hn Hk.
  destruct (callback_routes rq st) as [He|[[Hc Hs]|[(Hc & Hs & Hcode)|Hx]]].
  - by rewrite callback_provider_error.
  - rewrite callback_invalid_state by done. simpl. by rewrite lookup_delete_ne.
  - rewrite callback_no_code by done. simpl. by rewrite lookup_delete_ne.
  - done.
Qed.

(** X5: when [callback] answers 302 it is the redirect to [/], the request
    went through the exchange, the session holds an access token, so
    [profile] opens, and nothing was printed. *)
Theorem callback_redirect_means_signed_in rq st :
  status (callback W rq st).1 = 302 →
  (callback W rq st).1 = redirect (Path "/")
  ∧ reaches_exchange rq st
  ∧ is_Some (session (callback W rq st).2 !! "access_token")
  ∧ status (profile (callback W rq st).2).1 = 200
  ∧ stdout (callback W rq st).2 = stdout st.
Proof.
  intros H302.
  destruct (callback_routes rq st) as [He|[[Hc Hs]|[(Hc & Hs & Hcode)|Hx]]].
  - by rewrite callback_provider_error in H302.
  - by rewrite callback_invalid_state in H302.
  - by rewrite callback_no_code in H302.
  - destruct (callback_exchange_cases rq st Hx)
      as [(st' & Hex & Hcb)|(e & st' & Hex & Hcb)]; rewrite Hcb in *; [|done].
    simpl. pose proof (exchange_stdout (args_get "code" (args rq))
                         (with_session (delete "oauth_state") st)) as Hout.
    rewrite Hex in Hout. simpl in Hout.
    apply exchange_ok_inv in Hex as (_ & rsp & d & _ & _ & _ & Hst).
    pose proof (stored_access_token W d
                  (sent (token_request W (args_get "code" (args rq)))
                     (with_session (delete "oauth_state") st))) as Ha.
    rewrite Hst in Ha. simpl in Ha.
    split; [done|]. split; [done|]. split; [by eexists|].
    split; [|done]. unfold profile. by rewrite Ha.
Qed.

(** X6: [callback] prints exactly when it answers 500: one line, carrying
    the message the page shows. *)
Theorem callback_prints_on_failure rq st :
  (∃ e, (callback W rq st).1
        = {| resp_body := TokenExchangeFailedPage e; status := 500 |}
        ∧ stdout (callback W rq st).2 = stdout st ++ ["Token exchange error: " +:+ e])
  ∨ (status (callback W rq st).1 ≠ 500
     ∧ stdout (callback W rq st).2 = stdout st).
Proof.
  destruct (callback_routes rq st) as [He|[[Hc Hs]|[(Hc & Hs & Hcode)|Hx]]].
  - right. by rewrite callback_provider_error.
  - right. by rewrite callback_invalid_state.
  - right. by rewrite callback_no_code.
  - pose proof (exchange_stdout (args_get "code" (args rq))
                  (with_session (delete "oauth_state") st)) as Hout.
    destruct (callback_exchange_cases rq st Hx)
      as [(st' & Hex & Hcb)|(e & st' & Hex & Hcb)];
      rewrite Hcb; rewrite Hex in Hout; simpl in *.
    + right. by split.
    + left. exists e. by rewrite Hout.
Qed.

(** [callback] on a 200 reply that carries a JSON object. *)
Lemma callback_object rq st rsp d :
  reaches_exchange rq st →
  requests_post W (token_request W (args_get "code" (args rq))) = Ok rsp →
  status_code rsp = 200 →
  json rsp = Ok (PDict d) →
  callback W rq st =
    match stored W d (sent (token_request W (args_get "code" (args rq)))
                        (with_session (delete "oauth_state") st)) with
    | (Ok r, st') => (r, st')
    | (Raise e, st') =>
        ({| resp_body := TokenExchangeFailedPage e; status := 500 |},
         print ("Token exchange error: " +:+ e) st')
    end.
Proof.
  intros Hx Hp H200 Hj.
  rewrite (callback_exchange _ _ _ Hx), (exchange_answered _ _ _ _ Hp).
  by rewrite (store_tokens_object _ _ d).
Qed.

Lemma user_claims_object p :
  user_claims (PDict p)
  = Ok (PDict (<["email" := default PNone (p !! "email")]>
               (<["name" := default PNone (p !! "name")]>
               (<["sub" := default PNone (p !! "sub")]> ∅)))).
Proof. reflexivity. Qed.

Lemma user_claims_not_object v :
  (∀ p, v ≠ PDict p) → user_claims v = attribute_error v "get".
Proof. intros Hv. destruct v; try done. by destruct (Hv d). Qed.

(** X7: a reply without a refresh token leaves the refresh token of an
    earlier sign-in in the session, and a reply without an id token leaves
    the earlier claims there, next to the new access token. *)
Theorem callback_keeps_earlier_refresh_token_and_user rq st rsp d :
  reaches_exchange rq st →
  requests_post W (token_request W (args_get "code" (args rq))) = Ok rsp →
  status_code rsp = 200 →
  json rsp = Ok (PDict d) →
  truthy (default PNone (d !! "id_token")) = false →
  status (callback W rq st).1 = 302
  ∧ session (callback W rq st).2 !! "access_token"
    = Some (default PNone (d !! "access_token"))
  ∧ session (callback W rq st).2 !! "user" = session st !! "user"
  ∧ (truthy (default PNone (d !! "refresh_token")) = false →
     session (callback W rq st).2 !! "refresh_token" = session st !! "refresh_token").
Proof.
  intros Hx Hp H200 Hj Hid.
  rewrite (callback_object _ _ _ _ Hx Hp H200 Hj).
  unfold stored. rewrite Hid.
  destruct (truthy (default PNone (d !! "refresh_token"))); simpl;
    repeat split; try done; intros; by simplify_map_eq.
Qed.

(** X8: a 200 reply whose JSON is not an object (a list, a string, a
    number, [null]) is a failed exchange: 500 with the [AttributeError]
    of [.get], and nothing written to the session. *)
Theorem callback_non_object_body_500 rq st rsp v :
  reaches_exchange rq st →
  requests_post W (token_request W (args_get "code" (args rq))) = Ok rsp →
  status_code rsp = 200 →
  json rsp = Ok v →
  (∀ d, v ≠ PDict d) →
  (callback W rq st).1
  = {| resp_body :=
         TokenExchangeFailedPage
           ("'" +:+ type_name v +:+ "' object has no attribute 'get'");
       status := 500 |}
  ∧ session (callback W rq st).2 = delete "oauth_state" (session st).
Proof.
  intros Hx Hp H200 Hj Hv.
  rewrite (callback_exchange _ _ _ Hx), (exchange_answered _ _ _ _ Hp).
  unfold store_tokens.
  unfold mbind, M_bind, mret, M_ret, eval, raise. simpl.
  rewrite H200, Hj. simpl.
  destruct v; try done. by destruct (Hv d).
Qed.

(** X9: when the id token decodes to a JSON object, [callback] answers 302
    and stores under [user] exactly the claims [email], [name] and [sub]:
    a claim the payload lacks is stored as [None], any other claim of the
    payload is dropped. *)
Theorem callback_stores_three_claims rq st rsp d p :
  reaches_exchange rq st →
  requests_post W (token_request W (args_get "code" (args rq))) = Ok rsp →
  status_code rsp = 200 →
  json rsp = Ok (PDict d) →
  truthy (default PNone (d !! "id_token")) = true →
  id_token_payload W (default PNone (d !! "id_token")) = Ok (PDict p) →
  status (callback W rq st).1 = 302
  ∧ ∃ u, session (callback W rq st).2 !! "user" = Some (PDict u)
         ∧ dom u = claim_keys
         ∧ ∀ k, k ∈ claim_keys → u !! k = Some (default PNone (p !! k)).
Proof.
  intros Hx Hp H200 Hj Hid Hpay.
  rewrite (callback_object _ _ _ _ Hx Hp H200 Hj).
  unfold stored, decode_id_token. rewrite Hid, Hpay.
  unfold mbind, result_bind. rewrite user_claims_object.
  split; [done|]. eexists. split; [simpl; by simplify_map_eq|].
  split.
  - unfold claim_keys. rewrite !dom_insert_L, dom_empty_L. set_solver.
  - unfold claim_keys. intros k Hk.
    apply elem_of_list_to_set in Hk.
    repeat (apply elem_of_cons in Hk as [->|Hk]; [by simplify_map_eq|]).
    by apply elem_of_nil in Hk.
Qed.

(** X10: an id token whose payload is JSON but not an object fails the
    request with 500 after the access token was stored, and leaves the
    claims of the session as they were. *)
Theorem callback_payload_not_object_500 rq st rsp d v :
  reaches_exchange rq st →
  requests_post W (token_request W (args_get "code" (args rq))) = Ok rsp →
  status_code rsp = 200 →
  json rsp = Ok (PDict d) →
  truthy (default PNone (d !! "id_token")) = true →
  id_token_payload W (default PNone (d !! "id_token")) = Ok v →
  (∀ p, v ≠ PDict p) →
  (callback W rq st).1
  = {| resp_body :=
         TokenExchangeFailedPage
           ("'" +:+ type_name v +:+ "' object has no attribute 'get'");
       status := 500 |}
  ∧ session (callback W rq st).2 !! "access_token"
    = Some (default PNone (d !! "access_token"))
  ∧ session (callback W rq st).2 !! "user" = session st !! "user".
Proof.
  intros Hx Hp H200 Hj Hid Hpay Hv.
  rewrite (callback_object _ _ _ _ Hx Hp H200 Hj).
  unfold stored, decode_id_token. rewrite Hid, Hpay.
  unfold mbind, result_bind. rewrite (user_claims_not_object _ Hv).
  unfold attribute_error.
  destruct (truthy (default PNone (d !! "refresh_token"))); simpl;
    repeat split; by simplify_map_eq.
Qed.

End Callback.

(** ** The id token *)

Section IdToken.

Variable W : world.

Lemma str_split_nonempty c s : str_split c s ≠ [].
Proof.
  destruct s as [|a s]; simpl; [done|].
  destruct (Ascii.eqb a c); [done|]. by destruct (str_split c s).
Qed.

Lemma str_split_free c s : free_of c s = true → str_split c s = [s].
Proof.
  induction s as [|a s IH]; simpl; [done|].
  intros [Ha Hs]%andb_true_iff. apply negb_true_iff in Ha.
  by rewrite Ha, (IH Hs).
Qed.

Lemma str_split_at c h t :
  free_of c h = true → str_split c (h +:+ String c t) = h :: str_split c t.
Proof.
  induction h as [|a h IH]; simpl.
  - intros _. by rewrite Ascii.eqb_refl.
  - intros [Ha Hh]%andb_true_iff. apply negb_true_iff in Ha.
    by rewrite Ha, (IH Hh).
Qed.

Lemma str_split_pieces_free c s : Forall (λ w, free_of c w = true) (str_split c s).
Proof.
  induction s as [|a s IH]; simpl; [by repeat constructor|].
  destruct (Ascii.eqb a c) eqn:Ha; [by constructor|].
  destruct (str_split c s) as [|w ws]; [by repeat constructor; simpl; rewrite Ha|].
  inversion_clear IH as [|? ? Hw Hws]. constructor; [|done].
  simpl. by rewrite Ha, Hw.
Qed.

(** X11: [split] and [join] are inverse on the token: the pieces joined
    with the separator give the string back, there is always at least
    one piece, and no piece contains the separator. *)
Theorem str_split_join c s :
  String.concat (String c "") (str_split c s) = s
  ∧ str_split c s ≠ []
  ∧ Forall (λ w, free_of c w = true) (str_split c s).
Proof.
  split; [|split; [apply str_split_nonempty|apply str_split_pieces_free]].
  induction s as [|a s IH]; simpl; [done|].
  pose proof (str_split_nonempty c s) as Hne.
  destruct (Ascii.eqb_spec a c) as [->|Hac].
  - destruct (str_split c s) as [|w ws]; [done|].
    change (String c (String.concat (String c "") (w :: ws)) = String c s).
    by rewrite IH.
  - destruct (str_split c s) as [|w ws]; [done|].
    destruct ws as [|w' ws]; simpl in *; by rewrite <- IH.
Qed.

(** X12: a value that is not a string, or a string without a dot, is
    turned down before any decoder is asked: the exception is the
    [AttributeError] of [.split], or the [IndexError] of [[1]], whatever
    the libraries would answer. *)
Theorem id_token_payload_malformed v :
  (∀ s, v = PStr s → free_of "." s = true) →
  id_token_payload W v
  = match v with
    | PStr _ => Raise "list index out of range"
    | _ => Raise ("'" +:+ type_name v +:+ "' object has no attribute 'split'")
    end.
Proof.
  intros Hv. unfold id_token_payload.
  destruct v; try done.
  unfold split. unfold mbind at 1, result_bind at 1.
  by rewrite (str_split_free _ _ (Hv s eq_refl)).
Qed.

(** X13: of a token [header.payload.signature] only the payload goes to
    the decoders, with [==] appended; the header and the signature are
    not looked at. *)
Theorem id_token_payload_of_jwt h p sig :
  free_of "." h = true → free_of "." p = true →
  id_token_payload W (PStr (h +:+ "." +:+ p +:+ "." +:+ sig))
  = (raw ← urlsafe_b64decode W (p +:+ "==");
     txt ← bytes_decode_utf8 W raw;
     json_loads W txt).
Proof.
  intros Hh Hp. unfold id_token_payload, split.
  unfold mbind at 1, result_bind at 1.
  change (h +:+ "." +:+ p +:+ "." +:+ sig)
    with (h +:+ String "." (p +:+ String "." sig)).
  by rewrite (str_split_at _ _ _ Hh), (str_split_at _ _ _ Hp).
Qed.

End IdToken.

(** ** Sessions over several requests *)

Section Browsing.

Implicit Types (W : world) (rq : request) (st : store) (s d : gmap string pyval).

Lemma session_ok_empty : session_ok ∅.
Proof. by split. Qed.

Lemma session_keys_insert k v s :
  k ∈ session_keys → dom s ⊆ session_keys → dom (<[k := v]> s) ⊆ session_keys.
Proof.
  intros Hk Hs. rewrite dom_insert_L.
  apply union_least; [by apply singleton_subseteq_l|done].
Qed.

Lemma session_keys_elem k :
  k ∈ ["oauth_state"; "access_token"; "refresh_token"; "user"] → k ∈ session_keys.
Proof. intros Hk. unfold session_keys. by apply elem_of_list_to_set. Qed.

Lemma session_ok_delete_state s : session_ok s → session_ok (delete "oauth_state" s).
Proof.
  intros [Hk Hs Hr Hu]. split.
  - rewrite dom_delete_L. etrans; [apply subseteq_difference_l|]; done.
  - intros v. by rewrite lookup_delete_eq.
  - intros v. rewrite !lookup_delete_ne by done. apply Hr.
  - intros v. rewrite !lookup_delete_ne by done. apply Hu.
Qed.

Lemma session_ok_insert_state s tok :
  session_ok s → session_ok (<["oauth_state" := PStr tok]> s).
Proof.
  intros [Hk Hs Hr Hu]. split.
  - apply session_keys_insert; [apply session_keys_elem; repeat constructor|done].
  - intros v. rewrite lookup_insert_eq. intros [= <-]. eauto.
  - intros v. rewrite !lookup_insert_ne by done. apply Hr.
  - intros v. rewrite !lookup_insert_ne by done. apply Hu.
Qed.

Lemma session_ok_insert_access s v :
  session_ok s → session_ok (<["access_token" := v]> s).
Proof.
  intros [Hk Hs Hr Hu]. split.
  - apply session_keys_insert; [apply session_keys_elem; repeat constructor|done].
  - intros w. rewrite lookup_insert_ne by done. apply Hs.
  - intros w. rewrite lookup_insert_ne, lookup_insert_eq by done.
    intros Hw. split; [by apply Hr|by eexists].
  - intros w. rewrite lookup_insert_ne, lookup_insert_eq by done.
    intros Hw. split; [by apply Hu|by eexists].
Qed.

Lemma session_ok_insert_refresh s v :
  truthy v = true → is_Some (s !! "access_token") →
  session_ok s → session_ok (<["refresh_token" := v]> s).
Proof.
  intros Hv Ha [Hk Hs Hr Hu]. split.
  - apply session_keys_insert; [apply session_keys_elem; repeat constructor|done].
  - intros w. rewrite lookup_insert_ne by done. apply Hs.
  - intros w. rewrite lookup_insert_eq, lookup_insert_ne by done.
    by intros [= <-].
  - intros w. rewrite !lookup_insert_ne by done. apply Hu.
Qed.

Lemma session_ok_insert_user s d :
  dom d = claim_keys → is_Some (s !! "access_token") →
  session_ok s → session_ok (<["user" := PDict d]> s).
Proof.
  intros Hd Ha [Hk Hs Hr Hu]. split.
  - apply session_keys_insert; [apply session_keys_elem; repeat constructor|done].
  - intros w. rewrite lookup_insert_ne by done. apply Hs.
  - intros w. rewrite !lookup_insert_ne by done. apply Hr.
  - intros w. rewrite lookup_insert_eq, lookup_insert_ne by done.
    intros [= <-]. eauto.
Qed.

Lemma decode_id_token_claims W v u :
  decode_id_token W v = Ok u → ∃ d, u = PDict d ∧ dom d = claim_keys.
Proof.
  unfold decode_id_token, mbind, result_bind.
  destruct (id_token_payload W v) as [payload|e]; [|done].
  destruct payload; try done.
  rewrite user_claims_object. intros [= <-]. eexists. split; [done|].
  done.
Qed.

Lemma stored_session_ok W d st :
  session_ok (session st) → session_ok (session (stored W d st).2).
Proof.
  intros Hok. unfold stored.
  set (a := default PNone (d !! "access_token")).
  set (r := default PNone (d !! "refresh_token")).
  set (i := default PNone (d !! "id_token")).
  assert (session_ok (<["access_token" := a]> (session st))) as Hok1
    by by apply session_ok_insert_access.
  assert (session_ok
            (session (if truthy r
                      then with_session <["refresh_token" := r]>
                             (with_session <["access_token" := a]> st)
                      else with_session <["access_token" := a]> st))
          ∧ is_Some (session (if truthy r
                      then with_session <["refresh_token" := r]>
                             (with_session <["access_token" := a]> st)
                      else with_session <["access_token" := a]> st)
                     !! "access_token")) as [Hok2 Ha2].
  { destruct (truthy r) eqn:Hr; simpl.
    - split; [|by simplify_map_eq].
      apply session_ok_insert_refresh; [done|by simplify_map_eq|done].
    - split; [done|by simplify_map_eq]. }
  destruct (truthy i); [|done].
  destruct (decode_id_token W i) as [u|e] eqn:Hdec; [|done].
  apply decode_id_token_claims in Hdec as (du & -> & Hdu). simpl.
  by apply session_ok_insert_user.
Qed.

Lemma callback_session_ok W rq st :
  session_ok (session st) → session_ok (session (callback W rq st).2).
Proof.
  intros Hok.
  destruct (callback_routes rq st) as [He|[[Hc Hs]|[(Hc & Hs & Hcode)|Hx]]].
  - by rewrite callback_provider_error.
  - rewrite callback_invalid_state by done. by apply session_ok_delete_state.
  - rewrite callback_no_code by done. by apply session_ok_delete_state.
  - rewrite (callback_exchange _ _ _ Hx).
    set (st0 := with_session (delete "oauth_state") st).
    assert (session_ok (session st0)) as Hok0 by by apply session_ok_delete_state.
    set (code := args_get "code" (args rq)).
    assert (session_ok (session (exchange W code st0).2)) as Hex.
    { destruct (requests_post W (token_request W code)) as [rsp|e] eqn:Hp.
      - rewrite (exchange_answered _ _ _ _ Hp).
        destruct (store_tokens_cases W rsp (sent (token_request W code) st0))
          as [[e ->]|(d & _ & _ & ->)]; [done|].
        by apply stored_session_ok.
      - by rewrite (exchange_unanswered _ _ _ _ Hp). }
    by destruct (exchange W code st0) as [[r|e] st'].
Qed.

Lemma after_session_ok v st :
  session_ok (session st) → session_ok (session (after v st)).
Proof.
  intros Hok. destruct v as [|W fresh|W rq| |]; simpl.
  - done.
  - by apply session_ok_insert_state.
  - by apply callback_session_ok.
  - apply session_ok_empty.
  - unfold profile. by destruct (session st !! "access_token").
Qed.

Lemma browse_session_ok vs st :
  session_ok (session st) → session_ok (session (browse vs st)).
Proof.
  revert st. induction vs as [|v vs IH]; intros st Hok; simpl; [done|].
  by apply IH, after_session_ok.
Qed.

Lemma after_outbound v st :
  (length (outbound (after v st))
   ≤ length (outbound st) + (if is_callback v then 1 else 0))%nat.
Proof.
  destruct v as [|W fresh|W rq| |]; simpl; try lia.
  - destruct (decide (reaches_exchange rq st)) as [Hx|Hn].
    + rewrite callback_exchange_outbound, length_app by done. simpl. lia.
    + rewrite callback_guarded_outbound by done. lia.
  - unfold profile. destruct (session st !! "access_token"); simpl; lia.
Qed.

(** X14: the token [login] stores is the one [callback] asks for.  After a
    [login], a request without provider error is turned down with 403
    exactly when its [state] is not that token (or the token is empty). *)
Theorem login_then_callback W W' fresh rq st :
  given (args_get "error" (args rq)) = false →
  status (callback W' rq (login W fresh st).2).1 = 403
  ↔ args_get "state" (args rq) ≠ Some fresh ∨ fresh = "".
Proof.
  intros He.
  set (st1 := (login W fresh st).2).
  assert (stored_state st1 = PStr fresh) as Hst
    by (unfold stored_state, st1; simpl; by rewrite lookup_insert_eq).
  destruct (negb (given (args_get "state" (args rq)))
            || opt_str_ne (args_get "state" (args rq)) (stored_state st1))
    eqn:Hguard.
  - rewrite callback_invalid_state by done. split; [intros _|done].
    rewrite Hst in Hguard.
    destruct (args_get "state" (args rq)) as [s|]; [|by left].
    destruct (decide (s = fresh)) as [->|Hne]; [|left; congruence].
    right. apply orb_true_iff in Hguard as [Hg|Hg].
    + apply negb_true_iff in Hg. unfold given in Hg. simpl in Hg.
      by apply negb_false_iff, String.eqb_eq in Hg.
    + simpl in Hg. by rewrite String.eqb_refl in Hg.
  - apply orb_false_iff in Hguard as [Hg Hne].
    apply negb_false_iff, given_Some in Hg as (s & Hs & Hs').
    rewrite Hs, Hst in Hne. apply opt_str_ne_false in Hne as [= <-].
    split; [|intros [?| ->]; congruence].
    intros H403. exfalso.
    destruct (given (args_get "code" (args rq))) eqn:Hcode.
    + assert (reaches_exchange rq st1) as Hx.
      { repeat split; try done.
        - apply given_Some. eauto.
        - rewrite Hs, Hst. by apply opt_str_ne_false. }
      destruct (callback_exchange_cases W' rq st1 Hx)
        as [(st' & _ & Hcb)|(e & st' & _ & Hcb)]; by rewrite Hcb in H403.
    + rewrite callback_no_code in H403; [done|done| |done].
      rewrite Hs, Hst. apply orb_false_intro.
      * apply negb_false_iff, given_Some. eauto.
      * by apply opt_str_ne_false.
Qed.

(** X15: after [logout] nobody is signed in: [profile] answers 401, [home]
    shows the login page, and a [callback] that gets to the state check is
    answered 403 without a call to the token endpoint, whatever it
    presents. *)
Theorem logout_ends_session st :
  status (profile (logout st).2).1 = 401
  ∧ home (logout st).2 = Ok LoginPage
  ∧ ∀ W rq, given (args_get "error" (args rq)) = false →
      status (callback W rq (logout st).2).1 = 403
      ∧ outbound (callback W rq (logout st).2).2 = outbound st.
Proof.
  split; [done|]. split; [done|]. intros W rq He.
  rewrite callback_invalid_state; [done|done|].
  unfold stored_state. simpl. rewrite lookup_empty. simpl.
  destruct (args_get "state" (args rq)); [apply orb_true_r|done].
Qed.

(** X16: a new [login] replaces the pending token and touches nothing
    else: [profile] and [home] answer as before, and nothing is posted. *)
Theorem login_keeps_sign_in W fresh st :
  session (login W fresh st).2 !! "oauth_state" = Some (PStr fresh)
  ∧ (∀ k, k ≠ "oauth_state" →
       session (login W fresh st).2 !! k = session st !! k)
  ∧ (profile (login W fresh st).2).1 = (profile st).1
  ∧ home (login W fresh st).2 = home st
  ∧ outbound (login W fresh st).2 = outbound st.
Proof.
  split; [simpl; by rewrite lookup_insert_eq|].
  split; [intros k Hk; simpl; by rewrite lookup_insert_ne|].
  split; [|split; [|done]].
  - unfold profile. simpl. rewrite !lookup_insert_ne by done.
    by destruct (session st !! "access_token").
  - unfold home. simpl. by rewrite lookup_insert_ne.
Qed.

(** X17: whatever a browser does from its first visit on, its session has
    no key but the four the handlers write, the pending token is a string,
    a stored refresh token is never empty, the stored claims are exactly
    [email], [name] and [sub], and claims or a refresh token never come
    without an access token. *)
Theorem browse_session_shape vs :
  dom (session (browse vs first_visit)) ⊆ session_keys
  ∧ (∀ v, session (browse vs first_visit) !! "oauth_state" = Some v →
       ∃ t, v = PStr t)
  ∧ (∀ v, session (browse vs first_visit) !! "refresh_token" = Some v →
       truthy v = true)
  ∧ (∀ v, session (browse vs first_visit) !! "user" = Some v →
       ∃ d, v = PDict d ∧ dom d = claim_keys)
  ∧ (is_Some (session (browse vs first_visit) !! "refresh_token")
     ∨ is_Some (session (browse vs first_visit) !! "user") →
     is_Some (session (browse vs first_visit) !! "access_token")).
Proof.
  destruct (browse_session_ok vs first_visit session_ok_empty) as [Hk Hs Hr Hu].
  split; [done|]. split; [done|].
  split; [intros v Hv; by apply Hr|].
  split; [intros v Hv; by apply Hu|].
  intros [[v Hv]|[v Hv]]; [by apply (Hr v)|by apply (Hu v)].
Qed.

(** X18: on such a session [home] never fails and never falls back on the
    name [User]: it shows the login page when no claims are stored, and
    otherwise greets with the stored [email] claim, [None] included; and
    who is greeted can open [profile]. *)
Theorem home_after_browsing vs :
  (session (browse vs first_visit) !! "user" = None
   ∧ home (browse vs first_visit) = Ok LoginPage)
  ∨ (∃ d e, session (browse vs first_visit) !! "user" = Some (PDict d)
            ∧ d !! "email" = Some e
            ∧ home (browse vs first_visit) = Ok (WelcomePage e)
            ∧ status (profile (browse vs first_visit)).1 = 200).
Proof.
  destruct (browse_session_ok vs first_visit session_ok_empty) as [_ _ _ Hu].
  unfold home, profile.
  destruct (session (browse vs first_visit) !! "user") as [u|] eqn:Huser;
    [right|by left].
  destruct (Hu u eq_refl) as [(d & -> & Hd) [a Ha]].
  assert (is_Some (d !! "email")) as [e He].
  { apply elem_of_dom. rewrite Hd. unfold claim_keys.
    apply elem_of_list_to_set. repeat constructor. }
  exists d, e. rewrite Ha. simpl. by rewrite He.
Qed.

(** X19: the token endpoint is called from [callback] only, and at most
    once for each: over any run of visits no more requests are posted than
    there were callbacks. *)
Theorem browse_posts_at_most_once_per_callback vs st :
  (length (outbound (browse vs st))
   ≤ length (outbound st) + length (filter (λ v, is_callback v = true) vs))%nat.
Proof.
  revert st. induction vs as [|v vs IH]; intros st; simpl; [lia|].
  specialize (IH (after v st)). pose proof (after_outbound v st) as Hv.
  rewrite filter_cons.
  destruct (decide (is_callback v = true)) as [Hc|Hc].
  - rewrite Hc in Hv. simpl. lia.
  - apply not_true_is_false in Hc. rewrite Hc in Hv. lia.
Qed.

End Browsing.

(** ** The further properties on the demo provider *)

Lemma callback_without_code_400_witness :
  (callback (provider granted) {| args := [("state", "tok")] |} (logged_in "tok")).1
  = {| resp_body := PlainText "No authorization code received"; status := 400 |}
  ∧ session (callback (provider granted) {| args := [("state", "tok")] |}
               (logged_in "tok")).2 !! "oauth_state" = None.
Proof.
  destruct (callback_without_code_400 (provider granted) {| args := [("state", "tok")] |}
              (logged_in "tok") "tok" eq_refl eq_refl) as (Hr & Hs & _);
    [discriminate | reflexivity | reflexivity |].
  split; [exact Hr|]. rewrite Hs. reflexivity.
Defined.

Lemma callback_session_frame_witness :
  ("cart" ∉ session_keys)
  ∧ session (callback (provider granted) (returning "c" "tok")
               (with_session <["cart" := PInt 3]> (logged_in "tok"))).2 !! "cart"
    = Some (PInt 3).
Proof.
  assert ("cart" ∉ session_keys) as Hk.
  { intros H%elem_of_list_to_set.
    repeat (apply elem_of_cons in H as [H|H]; [discriminate H|]).
    by apply elem_of_nil in H. }
  split; [exact Hk|].
  rewrite (callback_session_frame (provider granted) (returning "c" "tok")
             (with_session <["cart" := PInt 3]> (logged_in "tok")) "cart" Hk).
  reflexivity.
Defined.

Lemma callback_rejected_keeps_login_witness :
  ¬ reaches_exchange denied (signed_in "tok")
  ∧ session (callback (provider granted) denied (signed_in "tok")).2 !! "access_token"
    = Some (PStr "at-0").
Proof.
  assert (¬ reaches_exchange denied (signed_in "tok")) as Hn.
  { intros [Hc _]. discriminate Hc. }
  split; [exact Hn|].
  rewrite (callback_rejected_keeps_login (provider granted) denied (signed_in "tok")
             "access_token" Hn); [reflexivity|discriminate].
Defined.

Lemma callback_redirect_means_signed_in_witness :
  status (callback (provider granted) (returning "c" "tok") (logged_in "tok")).1 = 302
  ∧ status (profile (callback (provider granted) (returning "c" "tok")
                       (logged_in "tok")).2).1 = 200.
Proof.
  assert (status (callback (provider granted) (returning "c" "tok") (logged_in "tok")).1
          = 302) as H302 by reflexivity.
  split; [exact H302|].
  destruct (callback_redirect_means_signed_in (provider granted) (returning "c" "tok")
              (logged_in "tok") H302) as (_ & _ & _ & Hp & _).
  exact Hp.
Defined.

Lemma callback_keeps_earlier_refresh_token_and_user_witness :
  reaches_exchange (returning "c" "tok") (signed_in "tok")
  ∧ session (callback (provider access_only) (returning "c" "tok") (signed_in "tok")).2
      !! "access_token" = Some (PStr "at-1")
  ∧ session (callback (provider access_only) (returning "c" "tok") (signed_in "tok")).2
      !! "refresh_token" = Some (PStr "rt-0")
  ∧ session (callback (provider access_only) (returning "c" "tok") (signed_in "tok")).2
      !! "user" = session (signed_in "tok") !! "user".
Proof.
  assert (reaches_exchange (returning "c" "tok") (signed_in "tok")) as Hx
    by (repeat split; reflexivity).
  split; [exact Hx|].
  destruct (callback_keeps_earlier_refresh_token_and_user (provider access_only)
              (returning "c" "tok") (signed_in "tok")
              {| status_code := 200; text := "";
                 json := Ok (PDict (<["access_token" := PStr "at-1"]> ∅)) |}
              (<["access_token" := PStr "at-1"]> ∅)
              Hx eq_refl eq_refl eq_refl eq_refl) as (_ & Ha & Hu & Hr).
  split; [exact Ha|]. split; [|exact Hu].
  rewrite (Hr eq_refl). reflexivity.
Defined.

Lemma callback_non_object_body_500_witness :
  reaches_exchange (returning "c" "tok") (logged_in "tok")
  ∧ (callback (provider null_body) (returning "c" "tok") (logged_in "tok")).1
    = {| resp_body :=
           TokenExchangeFailedPage "'NoneType' object has no attribute 'get'";
         status := 500 |}
  ∧ session (callback (provider null_body) (returning "c" "tok") (logged_in "tok")).2
    = delete "oauth_state" (session (logged_in "tok")).
Proof.
  assert (reaches_exchange (returning "c" "tok") (logged_in "tok")) as Hx
    by (repeat split; reflexivity).
  split; [exact Hx|].
  apply (callback_non_object_body_500 (provider null_body) (returning "c" "tok")
           (logged_in "tok")
           {| status_code := 200; text := "null"; json := Ok PNone |} PNone
           Hx eq_refl eq_refl eq_refl).
  discriminate.
Defined.

Lemma callback_stores_three_claims_witness :
  reaches_exchange (returning "c" "tok") (logged_in "tok")
  ∧ id_token_payload (provider granted_with_claims) (PStr "h.e30.s") = Ok (PDict ∅)
  ∧ status (callback (provider granted_with_claims) (returning "c" "tok")
              (logged_in "tok")).1 = 302
  ∧ ∃ u, session (callback (provider granted_with_claims) (returning "c" "tok")
                    (logged_in "tok")).2 !! "user" = Some (PDict u)
         ∧ u !! "email" = Some PNone.
Proof.
  assert (reaches_exchange (returning "c" "tok") (logged_in "tok")) as Hx
    by (repeat split; reflexivity).
  split; [exact Hx|]. split; [reflexivity|].
  destruct (callback_stores_three_claims (provider granted_with_claims)
              (returning "c" "tok") (logged_in "tok")
              {| status_code := 200; text := "";
                 json := Ok (PDict (<["access_token" := PStr "at-1"]>
                                    (<["id_token" := PStr "h.e30.s"]> ∅))) |}
              (<["access_token" := PStr "at-1"]> (<["id_token" := PStr "h.e30.s"]> ∅))
              ∅ Hx eq_refl eq_refl eq_refl eq_refl eq_refl)
    as (H302 & u & Hu & _ & Hget).
  split; [exact H302|]. exists u. split; [exact Hu|].
  apply (Hget "email"). apply elem_of_list_to_set. repeat constructor.
Defined.

Lemma callback_payload_not_object_500_witness :
  reaches_exchange (returning "c" "tok") (logged_in "tok")
  ∧ id_token_payload array_claims (PStr "h.W10.s") = Ok (PList [])
  ∧ (callback array_claims (returning "c" "tok") (logged_in "tok")).1
    = {| resp_body :=
           TokenExchangeFailedPage "'list' object has no attribute 'get'";
         status := 500 |}
  ∧ session (callback array_claims (returning "c" "tok") (logged_in "tok")).2
      !! "access_token" = Some (PStr "at-1").
Proof.
  assert (reaches_exchange (returning "c" "tok") (logged_in "tok")) as Hx
    by (repeat split; reflexivity).
  split; [exact Hx|]. split; [reflexivity|].
  destruct (callback_payload_not_object_500 array_claims
              (returning "c" "tok") (logged_in "tok")
              {| status_code := 200; text := "";
                 json := Ok (PDict (<["access_token" := PStr "at-1"]>
                                    (<["id_token" := PStr "h.W10.s"]> ∅))) |}
              (<["access_token" := PStr "at-1"]> (<["id_token" := PStr "h.W10.s"]> ∅))
              (PList []) Hx eq_refl eq_refl eq_refl eq_refl eq_refl)
    as (Hr & Ha & _); [discriminate|].
  split; [exact Hr|exact Ha].
Defined.

Lemma id_token_payload_malformed_witness :
  free_of "." "not-a-jwt" = true
  ∧ id_token_payload (provider granted) (PStr "not-a-jwt")
    = Raise "list index out of range".
Proof.
  split; [reflexivity|].
  apply (id_token_payload_malformed (provider granted) (PStr "not-a-jwt")).
  intros s [= <-]. reflexivity.
Defined.

Lemma id_token_payload_of_jwt_witness :
  free_of "." "h" = true ∧ free_of "." "e30" = true
  ∧ id_token_payload (provider granted) (PStr "h.e30.s") = Ok (PDict ∅).
Proof.
  split; [reflexivity|]. split; [reflexivity|].
  change (PStr "h.e30.s") with (PStr ("h" +:+ "." +:+ "e30" +:+ "." +:+ "s")).
  rewrite (id_token_payload_of_jwt (provider granted) "h" "e30" "s" eq_refl eq_refl).
  reflexivity.
Defined.

Lemma login_then_callback_witness :
  given (args_get "error" (args (returning "c" "other"))) = false
  ∧ status (callback (provider granted) (returning "c" "other")
              (login (provider granted) "tok" fresh_store).2).1 = 403
  ∧ status (callback (provider granted) (returning "c" "tok")
              (login (provider granted) "tok" fresh_store).2).1 ≠ 403.
Proof.
  split; [reflexivity|]. split.
  - apply (login_then_callback (provider granted) (provider granted) "tok"
             (returning "c" "other") fresh_store eq_refl).
    left. discriminate.
  - intros H403.
    apply (login_then_callback (provider granted) (provider granted) "tok"
             (returning "c" "tok") fresh_store eq_refl) in H403
      as [Hne|Hempty]; [by apply Hne|discriminate Hempty].
Defined.
